(** * DropzoneArea: the uncontrolled dropzone component

    A shallow embedding of [src/components/DropzoneArea.tsx].  The component
    keeps a list of file objects in its React state and reports to the host
    through the optional [onChange] and [onDelete] props.  Its methods are
    embedded as computations in a small state-and-exception monad over a
    [World] that holds the component state, the ambient DOM event and the
    trace of calls made to the outside (host callbacks and the console). *)

From Stdlib Require Import ZArith.
From stdpp Require Import base option list strings gmap.

Local Open Scope Z_scope.

(** ** JavaScript helpers *)

(** [array.filter((x, i) => p(x, i))]: the callback also receives the index,
    a JavaScript number counted from [0]. *)
Fixpoint js_filter_from {A : Type} (p : A → Z → bool) (i : Z) (l : list A)
  : list A :=
  match l with
  | [] => []
  | x :: l' =>
      if p x i then x :: js_filter_from p (i + 1) l'
      else js_filter_from p (i + 1) l'
  end.

Definition js_filter {A : Type} (p : A → Z → bool) (l : list A) : list A :=
  js_filter_from p 0 l.

(** [a !== b] on numbers. *)
Definition js_strict_ne (a b : Z) : bool := negb (a =? b).

Section DropzoneArea.

(** [File] is the browser's file handle, [Data] what [readFile] yields for
    it, [Reason] the value a helper's promise is rejected with. *)
Context {File Data Reason : Type}.

(** A settled promise. *)
Inductive Settled (A : Type) : Type :=
| Fulfilled (a : A)
| Rejected (r : Reason).
Global Arguments Fulfilled {A} a.
Global Arguments Rejected {A} r.

(** The two helpers imported from [../helpers]; their code is not part of
    this file, so they are parameters: each returns a promise. *)
Variable createFileFromUrl : string → Settled File.
Variable readFile : File → Settled Data.

(** [FileObject] of [../types]: a file handle with its loaded content. *)
Record FileObject : Type := { file : File; data : Data }.

(** An element of [initialFiles : (File | string)[]]. *)
Inductive InitialFile : Type :=
| Url (url : string)
| Handle (f : File).

(** [DropzoneAreaState].  An array slot is [Some] record or [None] for
    JavaScript's [undefined], which [newFileObjects[0]] yields when the
    batch is empty. *)
Record DropzoneAreaState : Type :=
  { fileObjects : list (option FileObject) }.

(** The props the component itself reads.  An absent optional prop is
    [None]; for the two callbacks only their presence matters, so they are
    booleans ([true]: the host supplied the callback).  [filesLimit] is a
    count of files and, in [deleteFile], the index an array position: both
    are JavaScript numbers holding integers, [Z] here. *)
Record DropzoneAreaProps : Type := {
  clearOnUnmount : option bool;
  initialFiles : option (list InitialFile);
  filesLimit : option Z;
  onChange : bool;
  onDelete : bool
}.

(** [static defaultProps]. *)
Definition defaultProps_clearOnUnmount : bool := true.
Definition defaultProps_filesLimit : Z := 3.
Definition defaultProps_initialFiles : list InitialFile := [].

(** ** Worlds, effects and the monad *)

(** What a [throw] carries: the [TypeError] of a member access on
    [undefined], or the reason of a rejected promise that was awaited. *)
Inductive Exn : Type :=
| TypeError
| Rejection (r : Reason).

(** Calls that leave the component. *)
Inductive Effect : Type :=
| OnChange (files : list File)     (* props.onChange(files) *)
| OnDelete (f : File)              (* props.onDelete(file) *)
| ConsoleLog (err : Exn).          (* console.log(err) *)

(** The global [event] that [deleteFile] touches. *)
Record DomEvent : Type := { propagationStopped : bool }.

Record World : Type := {
  state : DropzoneAreaState;
  event : option DomEvent;
  trace : list Effect
}.

(** [state = { fileObjects: [] }], nothing called yet, no event in flight. *)
Definition initialState : DropzoneAreaState := {| fileObjects := [] |}.
Definition initialWorld : World :=
  {| state := initialState; event := None; trace := [] |}.

Inductive Completion (A : Type) : Type :=
| Normal (a : A)
| Throw (e : Exn).
Global Arguments Normal {A} a.
Global Arguments Throw {A} e.

Definition M (A : Type) : Type := World → Completion A * World.

Definition ret {A : Type} (a : A) : M A := λ w, (Normal a, w).

Definition bind {A B : Type} (m : M A) (k : A → M B) : M B :=
  λ w, match m w with
       | (Normal a, w') => k a w'
       | (Throw e, w') => (Throw e, w')
       end.

Definition throw {A : Type} (e : Exn) : M A := λ w, (Throw e, w).

(** [try { body } catch (err) { handler }] *)
Definition try_catch {A : Type} (body : M A) (handler : Exn → M A) : M A :=
  λ w, match body w with
       | (Normal a, w') => (Normal a, w')
       | (Throw e, w') => handler e w'
       end.

(** [await p] *)
Definition await {A : Type} (p : Settled A) : M A :=
  match p with
  | Fulfilled a => ret a
  | Rejected r => throw (Rejection r)
  end.

(** Calling an [async] method and dropping the promise it returns: what the
    body does to the world stays, how it completes is not seen. *)
Definition detached {A : Type} (m : M A) : M unit :=
  λ w, (Normal tt, (m w).2).

Definition getState : M DropzoneAreaState := λ w, (Normal (state w), w).

Definition emit (e : Effect) : M unit :=
  λ w, (Normal tt,
        {| state := state w; event := event w; trace := trace w ++ [e] |}).

(** [this.setState(updater, callback)] on a mounted component, by React's
    contract for it: the state becomes [updater prevState], then the
    callback runs and reads the new state.  The object form
    [setState({...}, cb)] is the constant updater. *)
Definition setState (updater : DropzoneAreaState → DropzoneAreaState)
    (callback : M unit) : M unit :=
  λ w, callback
         {| state := updater (state w); event := event w; trace := trace w |}.

(** [this.setState(updater, callback)] issued from [componentWillUnmount]:
    React is removing the component and never processes an update enqueued
    at that point, so the state stays as it is and the callback is never
    run. *)
Definition setState_unmounting
    (updater : DropzoneAreaState → DropzoneAreaState) (callback : M unit)
  : M unit :=
  λ w, (Normal tt, w).

(** [event?.stopPropagation()] *)
Definition stopPropagation : M unit :=
  λ w, (Normal tt,
        {| state := state w;
           event := (λ _, {| propagationStopped := true |}) <$> event w;
           trace := trace w |}).

Global Instance M_ret : MRet M := @ret.
Global Instance M_bind : MBind M := λ A B k m, bind m k.

(** ** The component *)

(** [fileObject.file]: a [TypeError] when the slot holds [undefined]. *)
Definition get_file (fileObject : option FileObject) : M File :=
  match fileObject with
  | Some fo => mret (file fo)
  | None => throw TypeError
  end.

(** The [async] callback of lines 113-124, as the promise it returns. *)
Definition resolveInitialFile (initialFile : InitialFile)
  : Settled FileObject :=
  match
    match initialFile with
    | Url url => createFileFromUrl url
    | Handle f => Fulfilled f
    end
  with
  | Rejected r => Rejected r
  | Fulfilled f =>
      match readFile f with
      | Rejected r => Rejected r
      | Fulfilled d => Fulfilled {| file := f; data := d |}
      end
  end.

(** [Promise.all]: fulfilled with all the values, in the order of the
    array, when every promise is; rejected as soon as one is.  Which
    reason wins when several reject is a matter of timing; the embedding
    takes the first in array order. *)
Fixpoint promise_all {A : Type} (ps : list (Settled A))
  : Settled (list A) :=
  match ps with
  | [] => Fulfilled []
  | Rejected r :: _ => Rejected r
  | Fulfilled a :: ps' =>
      match promise_all ps' with
      | Fulfilled l => Fulfilled (a :: l)
      | Rejected r => Rejected r
      end
  end.

Section Methods.

Variable props : DropzoneAreaProps.

(** Lines 98-105. *)
Definition notifyFileChange : M unit :=
  st ← getState;
  if onChange props then
    files ← mapM get_file (fileObjects st);
    emit (OnChange files)
  else mret tt.

(** Lines 107-137.  The [try] block holds the [setState] call, so with
    [setState] as above a [throw] of its callback reaches the [catch] too. *)
Definition loadInitialFiles : M unit :=
  let initialFiles :=
    default defaultProps_initialFiles (initialFiles props) in
  try_catch
    (fileObjs ← await (promise_all (resolveInitialFile <$> initialFiles));
     setState
       (λ prevState,
          {| fileObjects :=
               fileObjects prevState ++ (Some <$> fileObjs) |})
       notifyFileChange)
    (λ err, emit (ConsoleLog err)).

(** Lines 81-83: the promise of [loadInitialFiles] is dropped. *)
Definition componentDidMount : M unit := detached loadInitialFiles.

(** Lines 85-96.  The [setState] here is the one of a component that is
    being unmounted. *)
Definition componentWillUnmount : M unit :=
  if default defaultProps_clearOnUnmount (clearOnUnmount props) then
    setState_unmounting (λ _, {| fileObjects := [] |}) notifyFileChange
  else mret tt.

(** Lines 139-156. *)
Definition addFiles (newFileObjects : list FileObject) : M unit :=
  let filesLimit := default defaultProps_filesLimit (filesLimit props) in
  setState
    (λ prevState,
       if bool_decide (filesLimit ≤ 1) then
         {| fileObjects := [newFileObjects !! 0%nat] |}
       else
         {| fileObjects :=
              fileObjects prevState ++ (Some <$> newFileObjects) |})
    notifyFileChange.

(** Lines 158-184. *)
Definition deleteFile (removedFileObj : FileObject)
    (removedFileObjIdx : Z) : M unit :=
  _ ← stopPropagation;
  st ← getState;
  let remainingFileObjs :=
    js_filter (λ _ i, js_strict_ne i removedFileObjIdx) (fileObjects st) in
  _ ← (if onDelete props then emit (OnDelete (file removedFileObj))
       else mret tt);
  setState (λ _, {| fileObjects := remainingFileObjs |}) notifyFileChange.

(** What can happen to a component: React mounts and unmounts it, the
    wrapped [DropzoneAreaBase] calls [onAdd] and [onDelete]. *)
Inductive Action : Type :=
| Mount
| Add (newFileObjects : list FileObject)
| Delete (removedFileObj : FileObject) (removedFileObjIdx : Z)
| Unmount.

Definition perform (a : Action) : M unit :=
  match a with
  | Mount => componentDidMount
  | Add newFileObjects => addFiles newFileObjects
  | Delete removedFileObj removedFileObjIdx =>
      deleteFile removedFileObj removedFileObjIdx
  | Unmount => componentWillUnmount
  end.

(** A run of actions from a world; a [throw] inside one action ends that
    action only, the next one is a new call. *)
Fixpoint run (actions : list Action) (w : World) : World :=
  match actions with
  | [] => w
  | a :: rest => run rest (perform a w).2
  end.

End Methods.

End DropzoneArea.

Arguments InitialFile File : clear implicits.
Arguments FileObject File Data : clear implicits.
Arguments DropzoneAreaState File Data : clear implicits.
Arguments DropzoneAreaProps File : clear implicits.
Arguments World File Data Reason : clear implicits.

(** The [onChange] calls among [new] were each made with the handles of the
    slots of [st], every slot being a record. *)
Definition notified_current {File Data Reason : Type}
    (st : DropzoneAreaState File Data)
    (new : list (Effect (File := File) (Reason := Reason))) : Prop :=
  ∀ files, OnChange files ∈ new →
           (fmap file <$> fileObjects st) = (Some <$> files).

(** [onChange] and [onDelete] calls reach the host; [console.log] does
    not. *)
Definition is_host_call {File Reason : Type}
    (e : Effect (File := File) (Reason := Reason)) : bool :=
  match e with
  | OnChange _ | OnDelete _ => true
  | ConsoleLog _ => false
  end.

Definition is_onChange {File Reason : Type}
    (e : Effect (File := File) (Reason := Reason)) : bool :=
  match e with
  | OnChange _ => true
  | _ => false
  end.

(** ** Rendering

    [splitDropzoneAreaProps] and [render] handle [this.props] as an object:
    its own properties by name, whatever they hold.  An object is a finite
    map from names to values, a value being [None] for [undefined].
    [this.props] is what the host passed with, for the names of
    [static defaultProps] the host left [undefined], the default put in by
    React ([thisProps] below). *)

(** [o.k]: [undefined] when [o] has no property [k]. *)
Definition js_get {A : Type} (o : gmap string (option A)) (k : string)
  : option A :=
  o !! k ≫= id.

Section Render.

Context {File Data V : Type}.

(** Lines 8-20: the four props the component keeps for itself, and the rest
    (the object rest pattern copies every other own property). *)
Definition splitDropzoneAreaProps (props : gmap string (option V))
  : gmap string (option V) * gmap string (option V) :=
  let clearOnUnmount := js_get props "clearOnUnmount" in
  let initialFiles := js_get props "initialFiles" in
  let onChange := js_get props "onChange" in
  let onDelete := js_get props "onDelete" in
  let dropzoneAreaProps :=
    delete "onDelete"
      (delete "onChange"
         (delete "initialFiles" (delete "clearOnUnmount" props))) in
  (<["clearOnUnmount" := clearOnUnmount]>
     (<["initialFiles" := initialFiles]>
        (<["onChange" := onChange]> (<["onDelete" := onDelete]> ∅))),
   dropzoneAreaProps).

(** What a prop of the rendered [DropzoneAreaBase] holds: a value found in
    [this.props] (passed by the host, or a default), the state's
    [fileObjects], or a method of the component. *)
Inductive BaseProp : Type :=
| HostValue (v : V)
| StateFileObjects (l : list (option (FileObject File Data)))
| BoundAddFiles
| BoundDeleteFile.

(** Lines 186-198, as a function of [this.props] and [this.state]: the
    props of the [DropzoneAreaBase] element; in JSX a later attribute
    overrides the spread before it. *)
Definition render (props : gmap string (option V))
    (st : DropzoneAreaState File Data) : gmap string (option BaseProp) :=
  let dropzoneAreaProps := (splitDropzoneAreaProps props).2 in
  let fileObjects := fileObjects st in
  <["onDelete" := Some BoundDeleteFile]>
    (<["onAdd" := Some BoundAddFiles]>
       (<["fileObjects" := Some (StateFileObjects fileObjects)]>
          (fmap (M := gmap string) (fmap (M := option) HostValue)
             dropzoneAreaProps))).

(** The values of [static defaultProps] (lines 71-75) as prop values. *)
Variable of_bool : bool → V.
Variable of_number : Z → V.
Variable of_initialFiles : list (InitialFile File) → V.




(** The names [render] does not hand through from [this.props]. *)
Definition reserved_names : list string :=
  ["clearOnUnmount"; "initialFiles"; "onChange"; "onDelete";
   "fileObjects"; "onAdd"].

End Render.

Arguments BaseProp File Data V : clear implicits.

(** ** A concrete instance

    File handles, contents and rejection reasons are strings; one URL cannot
    be fetched and one file cannot be read. *)

Module Sample.

Definition createFileFromUrl (url : string) : Settled (Reason := string) string :=
  if String.eqb url "https://host/missing.png" then Rejected "404"
  else Fulfilled url.

Definition readFile (f : string) : Settled (Reason := string) string :=
  if String.eqb f "unreadable.bin" then Rejected "NotReadableError"
  else Fulfilled ("data:" +:+ f).

Definition record (name : string) : FileObject string string :=
  {| file := name; data := "data:" +:+ name |}.

Definition world (l : list (option (FileObject string string)))
  : World string string string :=
  {| state := {| fileObjects := l |}; event := None; trace := [] |}.

Definition props (limit : option Z) (initial : list (InitialFile string))
  : DropzoneAreaProps string :=
  {| clearOnUnmount := None; initialFiles := Some initial;
     filesLimit := limit; onChange := true; onDelete := true |}.

(** The same host with [clearOnUnmount={false}]. *)
Definition props_keep : DropzoneAreaProps string :=
  {| clearOnUnmount := Some false; initialFiles := None;
     filesLimit := None; onChange := true; onDelete := true |}.

End Sample.

(** A host that passes a limit, its two callbacks, a prop of the base, and
    (against the types) its own [fileObjects]. *)
Module SampleHost.

Definition props : gmap string (option string) :=
  <["filesLimit" := Some "5"]>
    (<["onChange" := Some "hostOnChange"]>
       (<["onDelete" := Some "hostOnDelete"]>
          (<["dropzoneText" := Some "Drop here"]>
             (<["fileObjects" := Some "hostFileObjects"]> ∅)))).



End SampleHost.

(** A host that supplies no callback, with a limit of 1. *)
Module SampleQuiet.

Definition props : DropzoneAreaProps string :=
  {| clearOnUnmount := None;
     initialFiles := Some [Url "https://host/missing.png"];
     filesLimit := Some 1; onChange := false; onDelete := false |}.

End SampleQuiet.

(** ** Properties *)

Section Properties.

Context {File Data Reason : Type}.
Variable createFileFromUrl : string → Settled (Reason := Reason) File.
Variable readFile : File → Settled (Reason := Reason) Data.

Implicit Types (w : World File Data Reason).
Implicit Types (props : DropzoneAreaProps File).
Implicit Types (rs : list (FileObject File Data)).
Implicit Types (l : list (option (FileObject File Data))).

(** *** Filtering by index *)

Lemma js_filter_from_past {A : Type} (l : list A) (i idx : Z) :
  idx < i → js_filter_from (λ _ j, js_strict_ne j idx) i l = l.
Proof.
  revert i. induction l as [|x l IH]; intros i Hlt; simpl; [done|].
  unfold js_strict_ne at 1.
  destruct (Z.eqb_spec i idx) as [->|_]; [lia|]. simpl.
  f_equal. apply IH. lia.
Qed.

Lemma js_filter_from_delete {A : Type} (l : list A) (i : Z) (n : nat) :
  js_filter_from (λ _ j, js_strict_ne j (i + Z.of_nat n)) i l = delete n l.
Proof.
  revert i n. induction l as [|x l IH]; intros i n; simpl; [done|].
  unfold js_strict_ne at 1. destruct n as [|n].
  - replace (i + Z.of_nat 0) with i by lia. rewrite Z.eqb_refl. simpl.
    apply js_filter_from_past. lia.
  - destruct (Z.eqb_spec i (i + Z.of_nat (S n))) as [Heq|_]; [lia|]. simpl.
    f_equal. replace (i + Z.of_nat (S n)) with (i + 1 + Z.of_nat n) by lia.
    apply IH.
Qed.

Lemma js_filter_in_range {A : Type} (l : list A) (idx : Z) :
  0 ≤ idx →
  js_filter (λ _ j, js_strict_ne j idx) l
  = take (Z.to_nat idx) l ++ drop (S (Z.to_nat idx)) l.
Proof.
  intros Hidx. unfold js_filter. rewrite <- delete_take_drop.
  rewrite <- (js_filter_from_delete l 0 (Z.to_nat idx)).
  by replace (0 + Z.of_nat (Z.to_nat idx)) with idx by lia.
Qed.

Lemma js_filter_out_of_range {A : Type} (l : list A) (idx : Z) :
  idx < 0 ∨ Z.of_nat (length l) ≤ idx →
  js_filter (λ _ j, js_strict_ne j idx) l = l.
Proof.
  intros [Hneg|Hge]; [by apply js_filter_from_past|].
  rewrite js_filter_in_range by lia.
  rewrite take_ge, drop_ge by lia. by rewrite app_nil_r.
Qed.

(** *** The change notifier *)

Lemma mapM_cons_run {A B : Type} (f : A → M B) (x : A) (xs : list A) w :
  mapM f (x :: xs) w
  = match f x w with
    | (Normal y, w1) =>
        match mapM f xs w1 with
        | (Normal ys, w2) => (Normal (y :: ys), w2)
        | (Throw e, w2) => (Throw e, w2)
        end
    | (Throw e, w1) => (Throw e, w1)
    end.
Proof. reflexivity. Qed.

Lemma mret_run {A : Type} (a : A) w : (mret a : M A) w = (Normal a, w).
Proof. reflexivity. Qed.

Lemma bind_run {A B : Type} (m : M A) (k : A → M B) w :
  (m ≫= k) w
  = match m w with
    | (Normal a, w') => k a w'
    | (Throw e, w') => (Throw e, w')
    end.
Proof. reflexivity. Qed.

Lemma mapM_get_file_records rs w :
  mapM get_file (Some <$> rs) w = (Normal (file <$> rs), w).
Proof.
  induction rs as [|r rs IH]; [done|].
  rewrite !fmap_cons, mapM_cons_run. cbn [get_file].
  rewrite mret_run. by rewrite IH.
Qed.

(** On any slots, the mapping either yields the handles of the slots, all
    of them records, or throws the [TypeError]; the world is not touched. *)
Lemma mapM_get_file_cases l w :
  (∃ files, mapM get_file l w = (Normal files, w)
            ∧ (fmap file <$> l) = (Some <$> files))
  ∨ mapM get_file l w = (Throw TypeError, w).
Proof.
  induction l as [|[r|] l IH].
  - left. by exists [].
  - rewrite mapM_cons_run. cbn [get_file]. rewrite mret_run.
    destruct IH as [(files & -> & Hfiles)| ->]; [left|by right].
    exists (file r :: files). split; [done|].
    by rewrite !fmap_cons, Hfiles.
  - by right.
Qed.

Lemma world_eta w :
  {| state := state w; event := event w; trace := trace w ++ [] |} = w.
Proof. destruct w. simpl. by rewrite app_nil_r. Qed.

Lemma state_eta (st : DropzoneAreaState File Data) l :
  fileObjects st = l → st = {| fileObjects := l |}.
Proof. destruct st. simpl. by intros ->. Qed.

Lemma notifyFileChange_absent props w :
  onChange props = false → notifyFileChange props w = (Normal tt, w).
Proof.
  intros Hoff. unfold notifyFileChange.
  rewrite bind_run. simpl. by rewrite Hoff.
Qed.

Lemma notifyFileChange_records props w rs :
  onChange props = true →
  fileObjects (state w) = (Some <$> rs) →
  notifyFileChange props w
  = (Normal tt,
     {| state := state w; event := event w;
        trace := trace w ++ [OnChange (file <$> rs)] |}).
Proof.
  intros Hon Hrs. unfold notifyFileChange.
  rewrite bind_run. simpl. rewrite Hon, bind_run, Hrs.
  by rewrite mapM_get_file_records.
Qed.

(** Whatever the slots hold, the notifier leaves state and event alone and
    adds to the trace nothing or one [onChange] call; when it calls, every
    slot is a record and the argument is the handles of the slots. *)
Lemma notifyFileChange_cases props w :
  ∃ c new,
    notifyFileChange props w
    = (c, {| state := state w; event := event w; trace := trace w ++ new |})
    ∧ (new = []
       ∨ ∃ files, new = [OnChange files] ∧ c = Normal tt
                  ∧ (fmap file <$> fileObjects (state w)) = (Some <$> files)).
Proof.
  destruct (onChange props) eqn:Hon.
  - unfold notifyFileChange. rewrite bind_run. simpl. rewrite Hon, bind_run.
    destruct (mapM_get_file_cases (fileObjects (state w)) w)
      as [(files & -> & Hfiles)| ->].
    + exists (Normal tt), [OnChange files]. split; [done|]. right. eauto.
    + exists (Throw TypeError), []. rewrite world_eta. by split; [|left].
  - exists (Normal tt), []. rewrite world_eta.
    split; [by apply notifyFileChange_absent|by left].
Qed.

(** *** Promises *)

Lemma promise_all_fulfilled {A : Type} (xs : list A) :
  promise_all (Reason := Reason) (Fulfilled <$> xs) = Fulfilled xs.
Proof. induction xs as [|x xs IH]; [done|]. csimpl. by rewrite IH. Qed.

Lemma promise_all_rejected {A : Type} (ps : list (Settled A)) :
  Exists (λ p, ∃ r, p = Rejected r) ps →
  ∃ r, promise_all ps = Rejected (Reason := Reason) r ∧ Rejected r ∈ ps.
Proof.
  induction ps as [|[a|r] ps IH]; intros Hex.
  - by apply Exists_nil in Hex.
  - apply Exists_cons in Hex as [[r Hr]|Hex]; [done|].
    destruct (IH Hex) as (r & Hall & Hin). exists r. simpl. rewrite Hall.
    split; [done|]. by right.
  - exists r. split; [done|]. by left.
Qed.

Lemma resolveInitialFile_fulfilled (e : InitialFile File) fo :
  resolveInitialFile createFileFromUrl readFile e = Fulfilled fo
  ↔ match e with
    | Url url => createFileFromUrl url = Fulfilled (file fo)
    | Handle f => f = file fo
    end
    ∧ readFile (file fo) = Fulfilled (data fo).
Proof.
  unfold resolveInitialFile. destruct fo as [f d]. simpl. split.
  - destruct e as [url|f']; [destruct (createFileFromUrl url) as [f'|]|];
      try done; destruct (readFile f') as [d'|] eqn:Hread; try done;
      intros [= -> ->]; by rewrite ?Hread.
  - intros [He Hread]. destruct e as [url|f']; [rewrite He|subst f'];
      by rewrite Hread.
Qed.

Lemma all_resolved (entries : list (InitialFile File)) :
  Forall (λ e, ∃ fo, resolveInitialFile createFileFromUrl readFile e
                     = Fulfilled fo) entries →
  ∃ rs, Forall2 (λ e fo, resolveInitialFile createFileFromUrl readFile e
                         = Fulfilled fo) entries rs
        ∧ (resolveInitialFile createFileFromUrl readFile <$> entries)
          = (Fulfilled <$> rs).
Proof.
  induction 1 as [|e entries [fo Hfo] _ (rs & Hall & Heq)].
  - by exists [].
  - exists (fo :: rs). split; [by constructor|].
    by rewrite !fmap_cons, Hfo, Heq.
Qed.

(** *** Hydration at mount *)


Lemma loadInitialFiles_rejected props w :
  Exists (λ e, ∃ r, resolveInitialFile createFileFromUrl readFile e
                    = Rejected r)
    (default defaultProps_initialFiles (initialFiles props)) →
  ∃ r,
    Exists (λ e, resolveInitialFile createFileFromUrl readFile e
                 = Rejected r)
      (default defaultProps_initialFiles (initialFiles props))
    ∧ loadInitialFiles createFileFromUrl readFile props w
      = (Normal tt,
         {| state := state w; event := event w;
            trace := trace w ++ [ConsoleLog (Rejection r)] |}).
Proof.
  intros Hex.
  destruct (promise_all_rejected
              (resolveInitialFile createFileFromUrl readFile
                 <$> default defaultProps_initialFiles (initialFiles props)))
    as (r & Hall & Hin).
  { apply Exists_fmap. by apply (Exists_impl _ _ _ Hex). }
  exists r. split.
  - apply Exists_exists. apply list_elem_of_fmap in Hin as (e & He & Hin).
    by exists e.
  - unfold loadInitialFiles, try_catch. by rewrite bind_run, Hall.
Qed.


(** C2: when some entry of the initial list fails to resolve or to load,
    hydration leaves the state as it was, completes normally both as
    [loadInitialFiles] and as [componentDidMount], and its only effect is
    one [console.log] of the reason of a failed entry: no [onChange], no
    [onDelete]. *)
Theorem mount_failure_commits_nothing props w :
  Exists (λ e, ∃ r, resolveInitialFile createFileFromUrl readFile e
                    = Rejected r)
    (default defaultProps_initialFiles (initialFiles props)) →
  ∃ r,
    Exists (λ e, resolveInitialFile createFileFromUrl readFile e
                 = Rejected r)
      (default defaultProps_initialFiles (initialFiles props))
    ∧ loadInitialFiles createFileFromUrl readFile props w
      = (Normal tt,
         {| state := state w; event := event w;
            trace := trace w ++ [ConsoleLog (Rejection r)] |})
    ∧ componentDidMount createFileFromUrl readFile props w
      = (Normal tt,
         {| state := state w; event := event w;
            trace := trace w ++ [ConsoleLog (Rejection r)] |}).
Proof.
  intros Hex. destruct (loadInitialFiles_rejected props w Hex)
    as (r & Hr & Hload).
  exists r. repeat split; [done..|].
  unfold componentDidMount, detached. by rewrite Hload.
Qed.

(** *** Adding *)

Lemma addFiles_state props w (batch : list (FileObject File Data)) :
  state (addFiles props batch w).2
  = if bool_decide (default defaultProps_filesLimit (filesLimit props) ≤ 1)
    then {| fileObjects := [batch !! 0%nat] |}
    else {| fileObjects := fileObjects (state w) ++ (Some <$> batch) |}.
Proof.
  unfold addFiles, setState.
  match goal with
  | |- context [notifyFileChange props ?w0] =>
      destruct (notifyFileChange_cases props w0) as (c & new & -> & _)
  end.
  done.
Qed.

(** C3, as amended: with the limit at 1, adding a non-empty batch replaces
    the whole list by the first record of the batch; when the batch is a
    single record, that is the record added last. *)
Theorem addFiles_single_keeps_first props w r
    (rest : list (FileObject File Data)) :
  filesLimit props = Some 1 →
  fileObjects (state (addFiles props (r :: rest) w).2) = [Some r]
  ∧ (rest = [] →
     fileObjects (state (addFiles props (r :: rest) w).2)
     = [last (r :: rest)]).
Proof.
  intros Hlimit. rewrite addFiles_state, Hlimit. simpl.
  split; [done|]. by intros ->.
Qed.

(** C7: with a limit above 1, adding a batch puts its records after the
    slots already there; every earlier slot stays at its index. *)
Theorem addFiles_appends props w n (batch : list (FileObject File Data)) :
  filesLimit props = Some n →
  1 < n →
  fileObjects (state (addFiles props batch w).2)
  = fileObjects (state w) ++ (Some <$> batch)
  ∧ ∀ i x, fileObjects (state w) !! i = Some x →
           fileObjects (state (addFiles props batch w).2) !! i = Some x.
Proof.
  intros Hlimit Hn. rewrite addFiles_state, Hlimit. simpl.
  rewrite bool_decide_eq_false_2 by lia. simpl.
  split; [done|]. intros i x Hi. by apply lookup_app_l_Some.
Qed.

(** With no limit configured the default, 3, applies: the batch is
    appended. *)
Lemma addFiles_appends_by_default props w
    (batch : list (FileObject File Data)) :
  filesLimit props = None →
  fileObjects (state (addFiles props batch w).2)
  = fileObjects (state w) ++ (Some <$> batch).
Proof. intros Hlimit. by rewrite addFiles_state, Hlimit. Qed.

(** With an empty batch and a limit of 1 or less, the one slot left is
    [undefined], and the notifier, when [onChange] is supplied, throws. *)
Lemma addFiles_empty_batch props w :
  default defaultProps_filesLimit (filesLimit props) ≤ 1 →
  onChange props = true →
  addFiles props [] w
  = (Throw TypeError,
     {| state := {| fileObjects := [None] |}; event := event w;
        trace := trace w |}).
Proof.
  intros Hlimit Hon. unfold addFiles, setState.
  rewrite bool_decide_eq_true_2 by done.
  unfold notifyFileChange. rewrite bind_run. simpl. by rewrite Hon.
Qed.

(** C10: with a configured limit of 1 or less, zero and negative limits
    included, adding leaves the one-slot list holding [newFileObjects[0]],
    whatever the state was: the first record of a non-empty batch. *)
Theorem addFiles_limit_at_most_one props w n
    (batch : list (FileObject File Data)) :
  filesLimit props = Some n →
  n ≤ 1 →
  fileObjects (state (addFiles props batch w).2) = [batch !! 0%nat]
  ∧ ∀ r rest, batch = r :: rest →
              fileObjects (state (addFiles props batch w).2) = [Some r].
Proof.
  intros Hlimit Hn. rewrite addFiles_state, Hlimit. simpl.
  rewrite bool_decide_eq_true_2 by done. simpl.
  split; [done|]. by intros r rest ->.
Qed.

(** *** Deleting *)

Lemma deleteFile_run props w (removedFileObj : FileObject File Data) idx :
  deleteFile props removedFileObj idx w
  = notifyFileChange props
      {| state :=
           {| fileObjects :=
                js_filter (λ _ i, js_strict_ne i idx)
                  (fileObjects (state w)) |};
         event := (λ _, {| propagationStopped := true |}) <$> event w;
         trace :=
           trace w ++ (if onDelete props
                       then [OnDelete (file removedFileObj)] else []) |}.
Proof.
  unfold deleteFile. rewrite !bind_run. simpl.
  destruct (onDelete props); simpl; [done|].
  unfold setState. simpl. by rewrite app_nil_r.
Qed.

(** C4: on a state of records with the record [r] at the valid index
    [idx], [deleteFile r idx] (with both callbacks supplied) leaves the
    records before [idx] followed by those after it, calls [onDelete] with
    the handle of [r], then [onChange] with the handles of what is left. *)
Theorem deleteFile_removes_index props w rs (idx : Z)
    (r : FileObject File Data) :
  onDelete props = true →
  onChange props = true →
  fileObjects (state w) = (Some <$> rs) →
  0 ≤ idx →
  rs !! Z.to_nat idx = Some r →
  deleteFile props r idx w
  = (Normal tt,
     {| state :=
          {| fileObjects :=
               Some <$> (take (Z.to_nat idx) rs
                         ++ drop (S (Z.to_nat idx)) rs) |};
        event := (λ _, {| propagationStopped := true |}) <$> event w;
        trace :=
          trace w ++ [OnDelete (file r);
                      OnChange (file <$> (take (Z.to_nat idx) rs
                                          ++ drop (S (Z.to_nat idx)) rs))]
     |}).
Proof.
  intros Hdel Hon Hrs Hidx _.
  rewrite deleteFile_run, Hdel, Hrs, js_filter_in_range by done.
  rewrite <- fmap_take, <- fmap_drop, <- fmap_app.
  erewrite notifyFileChange_records by done. simpl.
  by rewrite <- app_assoc.
Qed.

(** C9: on a state of records and an index below zero or not below the
    length, [deleteFile r idx] (with both callbacks supplied) leaves the
    state as it was and still calls [onDelete] with the handle of the
    record it was given, then [onChange] with the handles of the unchanged
    list. *)
Theorem deleteFile_out_of_range props w rs (idx : Z)
    (r : FileObject File Data) :
  onDelete props = true →
  onChange props = true →
  fileObjects (state w) = (Some <$> rs) →
  idx < 0 ∨ Z.of_nat (length rs) ≤ idx →
  deleteFile props r idx w
  = (Normal tt,
     {| state := state w;
        event := (λ _, {| propagationStopped := true |}) <$> event w;
        trace := trace w ++ [OnDelete (file r); OnChange (file <$> rs)] |}).
Proof.
  intros Hdel Hon Hrs Hidx.
  rewrite deleteFile_run, Hdel, js_filter_out_of_range.
  - erewrite notifyFileChange_records by done. simpl.
    by rewrite <- app_assoc, <- (state_eta (state w) _ eq_refl).
  - by rewrite Hrs, length_fmap.
Qed.

(** *** Unmounting *)

(** Unmounting changes nothing and calls nothing, whatever the flag: with
    [clearOnUnmount] at [false] nothing is asked for, and otherwise the
    update that would clear the state and notify is never processed. *)
Lemma componentWillUnmount_run props w :
  componentWillUnmount props w = (Normal tt, w).
Proof.
  unfold componentWillUnmount.
  by destruct (default defaultProps_clearOnUnmount (clearOnUnmount props)).
Qed.

(** *** Every action *)

Lemma setState_notify_cases props w
    (updater : DropzoneAreaState File Data → DropzoneAreaState File Data) :
  ∃ c new,
    setState updater (notifyFileChange props) w
    = (c, {| state := updater (state w); event := event w;
             trace := trace w ++ new |})
    ∧ (new = [] ∨ ∃ files, new = [OnChange files] ∧ c = Normal tt)
    ∧ notified_current (updater (state w)) new.
Proof.
  unfold setState.
  match goal with
  | |- context [notifyFileChange props ?w0] =>
      destruct (notifyFileChange_cases props w0) as (c & new & -> & Hnew)
  end.
  exists c, new. simpl in *. split; [done|].
  destruct Hnew as [->|(files & -> & -> & Hfiles)]; split.
  - by left.
  - intros files Hin. by apply elem_of_nil in Hin.
  - right. eauto.
  - intros files' Hin. by apply list_elem_of_singleton in Hin as [= <-].
Qed.

Lemma perform_cases props (a : Action) w :
  ∃ new,
    trace (perform createFileFromUrl readFile props a w).2 = trace w ++ new
    ∧ notified_current
        (state (perform createFileFromUrl readFile props a w).2) new.
Proof.
  destruct a as [|batch|r idx|]; simpl.
  - (* Mount *)
    unfold componentDidMount, detached, loadInitialFiles, try_catch. simpl.
    rewrite bind_run.
    destruct (promise_all _) as [fileObjs|reason]; simpl.
    + match goal with
      | |- context [setState ?u _ w] =>
          destruct (setState_notify_cases props w u)
            as (c & new & -> & Hshape & Hnew)
      end.
      destruct c as [[]|e]; simpl; [by exists new|].
      destruct Hshape as [->|(files & _ & [=])].
      exists [ConsoleLog e]. rewrite app_nil_r. split; [done|].
      intros files Hin. by apply list_elem_of_singleton in Hin.
    + exists [ConsoleLog (Rejection reason)]. split; [done|].
      intros files Hin. by apply list_elem_of_singleton in Hin.
  - (* Add *)
    unfold addFiles.
    match goal with
    | |- context [setState ?u _ w] =>
        destruct (setState_notify_cases props w u)
          as (c & new & -> & _ & Hnew)
    end.
    by exists new.
  - (* Delete *)
    rewrite deleteFile_run.
    match goal with
    | |- context [notifyFileChange props ?w0] =>
        destruct (notifyFileChange_cases props w0) as (c & new & -> & Hnew)
    end.
    simpl in *.
    exists ((if onDelete props then [OnDelete (file r)] else []) ++ new).
    split; [by rewrite app_assoc|].
    intros files Hin. apply elem_of_app in Hin as [Hin|Hin].
    + destruct (onDelete props);
        [by apply list_elem_of_singleton in Hin|by apply elem_of_nil in Hin].
    + destruct Hnew as [->|(files' & -> & _ & Hfiles)];
        [by apply elem_of_nil in Hin|].
      by apply list_elem_of_singleton in Hin as [= ->].
  - (* Unmount *)
    rewrite componentWillUnmount_run.
    exists []. simpl. rewrite app_nil_r. split; [done|].
    intros files Hin. by apply elem_of_nil in Hin.
Qed.

(** Whichever action runs (mount, add, delete, unmount) and from whichever
    world, each [onChange] call it makes is made with a list of file handles
    ([list File], never contents) which is, slot for slot and in order, the
    handles of the records in state after the action. *)
Lemma onChange_receives_current_handles props (a : Action) w :
  ∃ new,
    trace (perform createFileFromUrl readFile props a w).2 = trace w ++ new
    ∧ ∀ files : list File,
        OnChange files ∈ new →
        (fmap file
           <$> fileObjects
                 (state (perform createFileFromUrl readFile props a w).2))
        = (Some <$> files).
Proof. apply perform_cases. Qed.

(** *** Single-file mode and the length of the state *)

Lemma js_filter_from_length {A : Type} (p : A → Z → bool) (i : Z)
    (xs : list A) :
  (length (js_filter_from p i xs) ≤ length xs)%nat.
Proof.
  revert i. induction xs as [|x xs IH]; intros i; simpl; [done|].
  specialize (IH (i + 1)). destruct (p x i); simpl; lia.
Qed.

(** Adding, deleting and unmounting keep a state of at most one slot at
    most one slot long when the limit is 1 or less. *)
Lemma single_file_mode_bounded props (a : Action) w :
  a ≠ Mount →
  default defaultProps_filesLimit (filesLimit props) ≤ 1 →
  (length (fileObjects (state w)) ≤ 1)%nat →
  (length (fileObjects
             (state (perform createFileFromUrl readFile props a w).2))
   ≤ 1)%nat.
Proof.
  intros Hmount Hlimit Hlen. destruct a as [|batch|r idx|]; simpl.
  - done.
  - rewrite addFiles_state, bool_decide_eq_true_2 by done. simpl. lia.
  - rewrite deleteFile_run.
    match goal with
    | |- context [notifyFileChange props ?w0] =>
        destruct (notifyFileChange_cases props w0) as (c & new & -> & _)
    end.
    simpl. etrans; [apply js_filter_from_length|done].
  - by rewrite componentWillUnmount_run.
Qed.

End Properties.

(** ** The properties at the concrete instance *)


(** C2 at a list whose second entry cannot be fetched. *)
Lemma mount_failure_commits_nothing_witness :
  ∃ r : string,
    Exists (λ e, resolveInitialFile Sample.createFileFromUrl Sample.readFile e
                 = Rejected r)
      [Handle "a.txt"; Url "https://host/missing.png"]
    ∧ loadInitialFiles Sample.createFileFromUrl Sample.readFile
        (Sample.props None [Handle "a.txt"; Url "https://host/missing.png"])
        (Sample.world [Some (Sample.record "old.txt")])
      = (Normal tt,
         {| state := {| fileObjects := [Some (Sample.record "old.txt")] |};
            event := None; trace := [ConsoleLog (Rejection r)] |})
    ∧ componentDidMount Sample.createFileFromUrl Sample.readFile
        (Sample.props None [Handle "a.txt"; Url "https://host/missing.png"])
        (Sample.world [Some (Sample.record "old.txt")])
      = (Normal tt,
         {| state := {| fileObjects := [Some (Sample.record "old.txt")] |};
            event := None; trace := [ConsoleLog (Rejection r)] |}).
Proof.
  apply (mount_failure_commits_nothing Sample.createFileFromUrl Sample.readFile
           (Sample.props None [Handle "a.txt"; Url "https://host/missing.png"])
           (Sample.world [Some (Sample.record "old.txt")])).
  right. left. exists "404". reflexivity.
Defined.

(** C3, as stated, fails: with the limit at 1 and a batch of two records the
    state ends with the first record of the batch, not with the one added
    last. *)
Lemma addFiles_single_not_last :
  filesLimit (Sample.props (Some 1) []) = Some 1
  ∧ [Sample.record "x.txt"; Sample.record "y.txt"] ≠ []
  ∧ fileObjects
      (state
         (addFiles (Reason := string) (Sample.props (Some 1) [])
            [Sample.record "x.txt"; Sample.record "y.txt"]
            (Sample.world [Some (Sample.record "old.txt")])).2)
    ≠ [last [Sample.record "x.txt"; Sample.record "y.txt"]].
Proof. repeat split; discriminate. Qed.

(** C3, as amended, at a batch of one record. *)
Lemma addFiles_single_keeps_first_witness :
  fileObjects
    (state
       (addFiles (Reason := string) (Sample.props (Some 1) [])
          [Sample.record "x.txt"]
          (Sample.world [Some (Sample.record "old.txt")])).2)
  = [Some (Sample.record "x.txt")]
  ∧ (@nil (FileObject string string) = [] →
     fileObjects
       (state
          (addFiles (Reason := string) (Sample.props (Some 1) [])
             [Sample.record "x.txt"]
             (Sample.world [Some (Sample.record "old.txt")])).2)
     = [last [Sample.record "x.txt"]]).
Proof.
  apply (addFiles_single_keeps_first (Sample.props (Some 1) [])
           (Sample.world [Some (Sample.record "old.txt")])
           (Sample.record "x.txt") []).
  reflexivity.
Defined.

(** C7 at a limit of 2. *)
Lemma addFiles_appends_witness :
  fileObjects
    (state
       (addFiles (Reason := string) (Sample.props (Some 2) [])
          [Sample.record "x.txt"; Sample.record "y.txt"]
          (Sample.world [Some (Sample.record "old.txt")])).2)
  = [Some (Sample.record "old.txt")]
    ++ (Some <$> [Sample.record "x.txt"; Sample.record "y.txt"])
  ∧ ∀ i x,
      [Some (Sample.record "old.txt")] !! i = Some x →
      fileObjects
        (state
           (addFiles (Reason := string) (Sample.props (Some 2) [])
              [Sample.record "x.txt"; Sample.record "y.txt"]
              (Sample.world [Some (Sample.record "old.txt")])).2) !! i
      = Some x.
Proof.
  apply (addFiles_appends (Sample.props (Some 2) [])
           (Sample.world [Some (Sample.record "old.txt")]) 2
           [Sample.record "x.txt"; Sample.record "y.txt"]).
  - reflexivity.
  - lia.
Defined.

(** C10 at a limit of -2. *)
Lemma addFiles_limit_at_most_one_witness :
  fileObjects
    (state
       (addFiles (Reason := string) (Sample.props (Some (-2)) [])
          [Sample.record "x.txt"; Sample.record "y.txt"]
          (Sample.world [Some (Sample.record "old.txt");
                         Some (Sample.record "older.txt")])).2)
  = [[Sample.record "x.txt"; Sample.record "y.txt"] !! 0%nat]
  ∧ ∀ r rest,
      [Sample.record "x.txt"; Sample.record "y.txt"] = r :: rest →
      fileObjects
        (state
           (addFiles (Reason := string) (Sample.props (Some (-2)) [])
              [Sample.record "x.txt"; Sample.record "y.txt"]
              (Sample.world [Some (Sample.record "old.txt");
                             Some (Sample.record "older.txt")])).2)
      = [Some r].
Proof.
  apply (addFiles_limit_at_most_one (Sample.props (Some (-2)) [])
           (Sample.world [Some (Sample.record "old.txt");
                          Some (Sample.record "older.txt")]) (-2)
           [Sample.record "x.txt"; Sample.record "y.txt"]).
  - reflexivity.
  - lia.
Defined.

(** C4 at the middle one of three records. *)
Lemma deleteFile_removes_index_witness :
  deleteFile (Reason := string) (Sample.props None []) (Sample.record "b.txt") 1
    (Sample.world (Some <$> [Sample.record "a.txt"; Sample.record "b.txt";
                             Sample.record "c.txt"]))
  = (Normal tt,
     {| state :=
          {| fileObjects :=
               [Some (Sample.record "a.txt"); Some (Sample.record "c.txt")] |};
        event := None;
        trace := [OnDelete "b.txt"; OnChange ["a.txt"; "c.txt"]] |}).
Proof.
  apply (deleteFile_removes_index (Sample.props None [])
           (Sample.world (Some <$> [Sample.record "a.txt";
                                    Sample.record "b.txt";
                                    Sample.record "c.txt"]))
           [Sample.record "a.txt"; Sample.record "b.txt";
            Sample.record "c.txt"] 1 (Sample.record "b.txt")).
  - reflexivity.
  - reflexivity.
  - reflexivity.
  - lia.
  - reflexivity.
Defined.

(** C9 at the index -1. *)
Lemma deleteFile_out_of_range_witness :
  deleteFile (Reason := string) (Sample.props None []) (Sample.record "z.txt")
    (-1)
    (Sample.world (Some <$> [Sample.record "a.txt"; Sample.record "b.txt"]))
  = (Normal tt,
     {| state :=
          {| fileObjects :=
               [Some (Sample.record "a.txt"); Some (Sample.record "b.txt")] |};
        event := None;
        trace := [OnDelete "z.txt"; OnChange ["a.txt"; "b.txt"]] |}).
Proof.
  refine (eq_trans
            (deleteFile_out_of_range (Sample.props None [])
               (Sample.world (Some <$> [Sample.record "a.txt";
                                        Sample.record "b.txt"]))
               [Sample.record "a.txt"; Sample.record "b.txt"] (-1)
               (Sample.record "z.txt") _ _ _ _) _).
  - reflexivity.
  - reflexivity.
  - reflexivity.
  - left. lia.
  - reflexivity.
Defined.

(** C5 at the failing input: with the limit at 1 and two initial files that
    both load, mounting from the initial world commits both records. *)
Theorem hydration_exceeds_single_file_limit :
  filesLimit (Sample.props (Some 1) [Handle "a.txt"; Handle "b.txt"]) = Some 1
  ∧ fileObjects
      (state
         (run Sample.createFileFromUrl Sample.readFile
            (Sample.props (Some 1) [Handle "a.txt"; Handle "b.txt"])
            [Mount] initialWorld))
    = [Some (Sample.record "a.txt"); Some (Sample.record "b.txt")]
  ∧ length
      (fileObjects
         (state
            (run Sample.createFileFromUrl Sample.readFile
               (Sample.props (Some 1) [Handle "a.txt"; Handle "b.txt"])
               [Mount] initialWorld)))
    = 2%nat.
Proof. repeat split. Qed.

(** ** Further properties of the component *)

Section MoreProperties.

Context {File Data Reason : Type}.
Variable createFileFromUrl : string → Settled (Reason := Reason) File.
Variable readFile : File → Settled (Reason := Reason) Data.

Implicit Types (w : World File Data Reason).
Implicit Types (props : DropzoneAreaProps File).
Implicit Types (rs prev : list (FileObject File Data)).
Implicit Types (l : list (option (FileObject File Data))).

(** *** Hydration *)

Lemma promise_all_fulfilled_inv {A : Type} (ps : list (Settled A))
    (xs : list A) :
  promise_all (Reason := Reason) ps = Fulfilled xs → ps = (Fulfilled <$> xs).
Proof.
  revert xs. induction ps as [|[a|r] ps IH]; intros xs; simpl.
  - by intros [= <-].
  - destruct (promise_all ps) as [ys|]; [|done].
    intros [= <-]. by rewrite fmap_cons, <- (IH ys).
  - done.
Qed.

Lemma resolved_fmap (entries : list (InitialFile File)) rs :
  Forall2 (λ e fo, resolveInitialFile createFileFromUrl readFile e
                   = Fulfilled fo) entries rs
  ↔ (resolveInitialFile createFileFromUrl readFile <$> entries)
    = (Fulfilled <$> rs).
Proof.
  split.
  - induction 1 as [|e fo entries rs He _ IH]; [done|].
    by rewrite !fmap_cons, He, IH.
  - revert rs. induction entries as [|e entries IH]; intros [|fo rs] Heq;
      try done.
    rewrite !fmap_cons in Heq. injection Heq as He Heq.
    constructor; [done|by apply IH].
Qed.

(** How [loadInitialFiles] goes once the promises are joined. *)
Lemma loadInitialFiles_run props w :
  loadInitialFiles createFileFromUrl readFile props w
  = match promise_all
            (resolveInitialFile createFileFromUrl readFile
               <$> default defaultProps_initialFiles (initialFiles props))
    with
    | Fulfilled fileObjs =>
        match notifyFileChange props
                {| state :=
                     {| fileObjects :=
                          fileObjects (state w) ++ (Some <$> fileObjs) |};
                   event := event w; trace := trace w |}
        with
        | (Normal a, w') => (Normal a, w')
        | (Throw e, w') => emit (ConsoleLog e) w'
        end
    | Rejected r => emit (ConsoleLog (Rejection r)) w
    end.
Proof.
  unfold loadInitialFiles, try_catch. rewrite bind_run.
  by destruct (promise_all _).
Qed.

(** X1: [loadInitialFiles] completes normally from every world and for
    every props, so the promise it returns is never rejected; and a
    rejection it catches is logged: when an entry fails to resolve or to
    load, all the call does is one [console.log] of the reason of a failed
    entry. *)
Theorem loadInitialFiles_catches_and_logs props w :
  (loadInitialFiles createFileFromUrl readFile props w).1 = Normal tt
  ∧ (Exists (λ e, ∃ r, resolveInitialFile createFileFromUrl readFile e
                       = Rejected r)
       (default defaultProps_initialFiles (initialFiles props)) →
     ∃ r,
       Exists (λ e, resolveInitialFile createFileFromUrl readFile e
                    = Rejected r)
         (default defaultProps_initialFiles (initialFiles props))
       ∧ (loadInitialFiles createFileFromUrl readFile props w).2
         = {| state := state w; event := event w;
              trace := trace w ++ [ConsoleLog (Rejection r)] |}).
Proof.
  split.
  - rewrite loadInitialFiles_run.
    destruct (promise_all _) as [fileObjs|r]; [|done].
    match goal with
    | |- context [notifyFileChange props ?w0] =>
        destruct (notifyFileChange_cases props w0) as (c & new & -> & _)
    end.
    by destruct c as [[]|e].
  - intros Hex.
    destruct (loadInitialFiles_rejected createFileFromUrl readFile props w Hex)
      as (r & Hr & ->).
    by exists r.
Qed.

(** X2: hydration never commits part of the initial list: from every world
    the slots afterwards are either the slots before, or the slots before
    followed by one record per entry of the list, in its order. *)
Theorem hydration_all_or_nothing props w :
  fileObjects (state (loadInitialFiles createFileFromUrl readFile props w).2)
  = fileObjects (state w)
  ∨ ∃ rs,
      Forall2 (λ e fo, resolveInitialFile createFileFromUrl readFile e
                       = Fulfilled fo)
        (default defaultProps_initialFiles (initialFiles props)) rs
      ∧ fileObjects
          (state (loadInitialFiles createFileFromUrl readFile props w).2)
        = fileObjects (state w) ++ (Some <$> rs).
Proof.
  rewrite loadInitialFiles_run.
  destruct (promise_all _) as [fileObjs|r] eqn:Hall; [right|by left].
  exists fileObjs. split.
  - apply resolved_fmap. by apply promise_all_fulfilled_inv.
  - match goal with
    | |- context [notifyFileChange props ?w0] =>
        destruct (notifyFileChange_cases props w0) as (c & new & -> & _)
    end.
    by destruct c as [[]|e].
Qed.

(** X3: when hydration completes on a state that already holds records
    (files were added while the initial ones were loading), the hydrated
    records go after them, and [onChange] is called once with the handles of
    all of them, the earlier ones first. *)
Theorem hydration_appends_to_existing props w prev rs :
  onChange props = true →
  fileObjects (state w) = (Some <$> prev) →
  Forall2 (λ e fo, resolveInitialFile createFileFromUrl readFile e
                   = Fulfilled fo)
    (default defaultProps_initialFiles (initialFiles props)) rs →
  loadInitialFiles createFileFromUrl readFile props w
  = (Normal tt,
     {| state := {| fileObjects := Some <$> (prev ++ rs) |};
        event := event w;
        trace := trace w ++ [OnChange (file <$> (prev ++ rs))] |}).
Proof.
  intros Hon Hprev Hrs. rewrite loadInitialFiles_run.
  apply resolved_fmap in Hrs. rewrite Hrs, promise_all_fulfilled, Hprev.
  rewrite <- fmap_app.
  by rewrite (notifyFileChange_records props _ (prev ++ rs) Hon).
Qed.

(** X4: mounting with no initial files (the prop absent, or an empty list)
    still calls [onChange], once, with the handles of the records in state:
    the empty list at a first mount.  The state is not changed. *)
Theorem mount_without_initial_files_notifies props w rs :
  initialFiles props = None ∨ initialFiles props = Some [] →
  onChange props = true →
  fileObjects (state w) = (Some <$> rs) →
  componentDidMount createFileFromUrl readFile props w
  = (Normal tt,
     {| state := state w; event := event w;
        trace := trace w ++ [OnChange (file <$> rs)] |}).
Proof.
  intros Hnone Hon Hrs. unfold componentDidMount, detached.
  rewrite loadInitialFiles_run.
  replace (default defaultProps_initialFiles (initialFiles props))
    with (@nil (InitialFile File)) by (by destruct Hnone as [-> | ->]).
  simpl. rewrite app_nil_r.
  rewrite (notifyFileChange_records props _ rs Hon) by done. simpl.
  by rewrite <- (state_eta (state w) _ eq_refl).
Qed.

(** *** Adding and deleting *)

(** X5: with a limit above 1 [addFiles] never trims: the state grows by
    the length of the batch, whatever the limit, so it can grow past it. *)
Theorem addFiles_not_capped props w n (batch : list (FileObject File Data)) :
  filesLimit props = Some n →
  1 < n →
  length (fileObjects (state (addFiles props batch w).2))
  = (length (fileObjects (state w)) + length batch)%nat.
Proof.
  intros Hlimit Hn. rewrite addFiles_state, Hlimit. simpl.
  rewrite bool_decide_eq_false_2 by lia. simpl.
  by rewrite length_app, length_fmap.
Qed.

(** X6: in single-file mode an empty batch leaves one slot holding
    [undefined], whatever the state was; nothing is called, and when
    [onChange] is supplied the notifier throws a [TypeError] on reading the
    slot's [file], where without the callback the call completes. *)
Theorem addFiles_empty_batch_single_mode props w :
  default defaultProps_filesLimit (filesLimit props) ≤ 1 →
  addFiles props [] w
  = (if onChange props then Throw TypeError else Normal tt,
     {| state := {| fileObjects := [None] |}; event := event w;
        trace := trace w |}).
Proof.
  intros Hlimit. unfold addFiles, setState.
  rewrite bool_decide_eq_true_2 by done.
  unfold notifyFileChange. rewrite bind_run. simpl.
  by destruct (onChange props).
Qed.

(** X7: in single-file mode (limit of 1 or less, [onChange] supplied)
    adding a non-empty batch completes normally and calls [onChange] once,
    with the handle of the first record alone; the records it replaces and
    the rest of the batch go without any [onDelete] call. *)
Theorem addFiles_single_notifies_kept_only props w r
    (rest : list (FileObject File Data)) :
  default defaultProps_filesLimit (filesLimit props) ≤ 1 →
  onChange props = true →
  addFiles props (r :: rest) w
  = (Normal tt,
     {| state := {| fileObjects := [Some r] |}; event := event w;
        trace := trace w ++ [OnChange [file r]] |}).
Proof.
  intros Hlimit Hon. unfold addFiles, setState.
  rewrite bool_decide_eq_true_2 by done.
  by rewrite (notifyFileChange_records props _ [r] Hon).
Qed.

Lemma deleteFile_state props w (r : FileObject File Data) idx :
  fileObjects (state (deleteFile props r idx w).2)
  = js_filter (λ _ i, js_strict_ne i idx) (fileObjects (state w)).
Proof.
  rewrite deleteFile_run.
  match goal with
  | |- context [notifyFileChange props ?w0] =>
      destruct (notifyFileChange_cases props w0) as (c & new & -> & _)
  end.
  done.
Qed.

(** X8: with a limit above 1 (configured or the default), adding one
    record and then deleting at the index it was appended at gives back the
    slots there were, whichever record [deleteFile] is handed. *)
Theorem add_then_delete_restores props w (r r' : FileObject File Data) :
  1 < default defaultProps_filesLimit (filesLimit props) →
  fileObjects
    (state
       (run createFileFromUrl readFile props
          [Add [r]; Delete r' (Z.of_nat (length (fileObjects (state w))))] w))
  = fileObjects (state w).
Proof.
  intros Hlimit. simpl.
  rewrite deleteFile_state, addFiles_state.
  rewrite bool_decide_eq_false_2 by lia. simpl.
  rewrite js_filter_in_range by lia. rewrite Nat2Z.id.
  rewrite take_app_length.
  rewrite drop_ge by (rewrite length_app; simpl; lia).
  by rewrite app_nil_r.
Qed.

(** X9: what [deleteFile] removes is decided by the index alone, on any
    slots and whichever callbacks are supplied: the slot at a non-negative
    index is dropped (none when the index is past the end), a negative index
    drops nothing.  The record handed in plays no part. *)
Theorem deleteFile_state_by_index props w (r : FileObject File Data) idx :
  fileObjects (state (deleteFile props r idx w).2)
  = if bool_decide (0 ≤ idx)
    then delete (Z.to_nat idx) (fileObjects (state w))
    else fileObjects (state w).
Proof.
  rewrite deleteFile_state. case_bool_decide as Hidx.
  - rewrite js_filter_in_range by done. by rewrite delete_take_drop.
  - apply js_filter_out_of_range. left. lia.
Qed.

(** X10: in single-file mode, a run of adds, deletes and unmounts (no
    mount) started on at most one slot never holds more than one slot. *)
Theorem single_file_mode_invariant props (actions : list Action) w :
  Forall (λ a, a ≠ Mount) actions →
  default defaultProps_filesLimit (filesLimit props) ≤ 1 →
  (length (fileObjects (state w)) ≤ 1)%nat →
  (length
     (fileObjects (state (run createFileFromUrl readFile props actions w)))
   ≤ 1)%nat.
Proof.
  intros Hactions Hlimit. revert w.
  induction Hactions as [|a actions Ha _ IH]; intros w Hlen; simpl; [done|].
  apply IH. by apply single_file_mode_bounded.
Qed.

(** *** What an action calls *)

Lemma notifyFileChange_trace props w :
  ∃ c new,
    notifyFileChange props w
    = (c, {| state := state w; event := event w; trace := trace w ++ new |})
    ∧ (new = []
       ∨ ∃ files, new = [OnChange files] ∧ c = Normal tt
                  ∧ onChange props = true).
Proof.
  destruct (onChange props) eqn:Hon.
  - destruct (notifyFileChange_cases props w)
      as (c & new & Hrun & [->|(files & -> & -> & _)]).
    + exists c, []. split; [done|by left].
    + exists (Normal tt), [OnChange files]. split; [done|]. right. eauto.
  - exists (Normal tt), []. rewrite world_eta.
    split; [by apply notifyFileChange_absent|by left].
Qed.

(** The calls of one action: for a delete the [onDelete] call, if the
    callback is supplied; then nothing more, or one [onChange] call (the
    callback being supplied), or, at mount only, one [console.log].  The
    event is touched by a delete only. *)
Lemma perform_effects props (a : Action) w :
  ∃ tail,
    trace (perform createFileFromUrl readFile props a w).2
    = trace w
      ++ match a with
         | Delete r _ => if onDelete props then [OnDelete (file r)] else []
         | _ => []
         end
      ++ tail
    ∧ (tail = []
       ∨ (∃ files, tail = [OnChange files] ∧ onChange props = true)
       ∨ (∃ e, tail = [ConsoleLog e] ∧ a = Mount))
    ∧ event (perform createFileFromUrl readFile props a w).2
      = match a with
        | Delete _ _ => (λ _, {| propagationStopped := true |}) <$> event w
        | _ => event w
        end.
Proof.
  destruct a as [|batch|r idx|]; simpl.
  - unfold componentDidMount, detached. rewrite loadInitialFiles_run.
    destruct (promise_all _) as [fileObjs|r].
    + match goal with
      | |- context [notifyFileChange props ?w0] =>
          destruct (notifyFileChange_trace props w0)
            as (c & new & -> & Hnew)
      end.
      destruct c as [[]|e]; simpl.
      * exists new. split; [done|]. split; [|done].
        destruct Hnew as [->|(files & -> & _ & Hon)]; [by left|].
        right. left. eauto.
      * destruct Hnew as [->|(files & _ & [=] & _)].
        exists [ConsoleLog e]. rewrite app_nil_r.
        split; [done|]. split; [|done]. right. right. eauto.
    + exists [ConsoleLog (Rejection r)]. split; [done|]. split; [|done].
      right. right. eauto.
  - unfold addFiles, setState.
    match goal with
    | |- context [notifyFileChange props ?w0] =>
        destruct (notifyFileChange_trace props w0) as (c & new & -> & Hnew)
    end.
    exists new. split; [done|]. split; [|done].
    destruct Hnew as [->|(files & -> & _ & Hon)]; [by left|].
    right. left. eauto.
  - rewrite deleteFile_run.
    match goal with
    | |- context [notifyFileChange props ?w0] =>
        destruct (notifyFileChange_trace props w0) as (c & new & -> & Hnew)
    end.
    exists new. simpl. split; [by rewrite app_assoc|]. split; [|done].
    destruct Hnew as [->|(files & -> & _ & Hon)]; [by left|].
    right. left. eauto.
  - rewrite componentWillUnmount_run.
    exists []. simpl. rewrite app_nil_r. split; [done|]. split; [|done].
    by left.
Qed.

(** Adding, deleting and a hydration whose entries all resolve are each
    followed by the notification: with [onChange] supplied and a state of
    records afterwards, the last call of the action is [onChange] with the
    handles of those records, in order; before it there is only the
    [onDelete] call of a delete. *)
Lemma change_is_notified_with_handles props (a : Action) w rs :
  onChange props = true →
  match a with
  | Mount =>
      Forall (λ e, ∃ fo, resolveInitialFile createFileFromUrl readFile e
                         = Fulfilled fo)
        (default defaultProps_initialFiles (initialFiles props))
  | Add _ | Delete _ _ => True
  | Unmount => False
  end →
  fileObjects (state (perform createFileFromUrl readFile props a w).2)
  = (Some <$> rs) →
  trace (perform createFileFromUrl readFile props a w).2
  = trace w
    ++ match a with
       | Delete r _ => if onDelete props then [OnDelete (file r)] else []
       | _ => []
       end
    ++ [OnChange (file <$> rs)].
Proof.
  intros Hon Ha Hst. destruct a as [|batch|r idx|]; simpl in *; [| | |done].
  - destruct (all_resolved createFileFromUrl readFile _ Ha)
      as (fileObjs & _ & Heq).
    unfold componentDidMount, detached in *. simpl in *.
    rewrite loadInitialFiles_run, Heq, promise_all_fulfilled in Hst |- *.
    match goal with
    | |- context [notifyFileChange props ?w0] =>
        assert (fileObjects (state w0) = (Some <$> rs)) as Hw0;
        [destruct (notifyFileChange_cases props w0) as (c & new & Hrun & _);
         rewrite Hrun in Hst; by destruct c as [[]|e]
        |by rewrite (notifyFileChange_records props w0 rs Hon Hw0)]
    end.
  - rewrite addFiles_state in Hst. unfold addFiles, setState.
    by erewrite notifyFileChange_records.
  - rewrite deleteFile_state in Hst. rewrite deleteFile_run.
    erewrite notifyFileChange_records by done. simpl.
    by rewrite <- app_assoc.
Qed.

(** X11: a component given neither [onChange] nor [onDelete] never calls
    its host: over any run of actions, from any world, all it adds to the
    trace is [console.log] calls. *)
Theorem no_callbacks_no_host_calls props (actions : list Action) w :
  onChange props = false →
  onDelete props = false →
  ∃ new,
    trace (run createFileFromUrl readFile props actions w) = trace w ++ new
    ∧ Forall (λ e, is_host_call e = false) new.
Proof.
  intros Hon Hdel. revert w.
  induction actions as [|a actions IH]; intros w; simpl.
  - exists []. by rewrite app_nil_r.
  - destruct (IH (perform createFileFromUrl readFile props a w).2)
      as (new & -> & Hnew).
    destruct (perform_effects props a w) as (tail & -> & Htail & _).
    replace (match a with
             | Delete r _ => if onDelete props then [OnDelete (file r)] else []
             | _ => []
             end) with (@nil (Effect (File := File) (Reason := Reason)))
      by (rewrite Hdel; by destruct a).
    simpl. exists (tail ++ new). split; [by rewrite app_assoc|].
    apply Forall_app. split; [|done].
    destruct Htail as [->|[(files & _ & Hon')|(e & -> & _)]].
    + constructor.
    + congruence.
    + by repeat constructor.
Qed.

(** X12: no action calls [onChange] more than once. *)
Theorem at_most_one_onChange_per_action props (a : Action) w :
  ∃ new,
    trace (perform createFileFromUrl readFile props a w).2 = trace w ++ new
    ∧ (length (List.filter is_onChange new) ≤ 1)%nat.
Proof.
  destruct (perform_effects props a w) as (tail & -> & Htail & _).
  eexists. split; [done|].
  rewrite List.filter_app, length_app.
  assert (length (List.filter is_onChange tail) ≤ 1)%nat as Htl.
  { destruct Htail as [->|[(files & -> & _)|(e & -> & _)]]; simpl; lia. }
  destruct a as [|batch|r idx|]; simpl; try lia.
  destruct (onDelete props); simpl; lia.
Qed.

(** X13: [console.log] is called at mount only, and [onDelete] only by a
    delete, when the callback is supplied, with the handle of the record
    that [deleteFile] was handed. *)
Theorem log_and_onDelete_origin props (a : Action) w :
  ∃ new,
    trace (perform createFileFromUrl readFile props a w).2 = trace w ++ new
    ∧ (∀ e, ConsoleLog e ∈ new → a = Mount)
    ∧ (∀ f, OnDelete f ∈ new →
            onDelete props = true
            ∧ ∃ r idx, a = Delete r idx ∧ f = file r).
Proof.
  destruct (perform_effects props a w) as (tail & -> & Htail & _).
  eexists. split; [done|]. split.
  - intros e Hin. apply elem_of_app in Hin as [Hin|Hin].
    + destruct a as [|batch|r idx|]; try by apply elem_of_nil in Hin.
      destruct (onDelete props);
        [by apply list_elem_of_singleton in Hin|by apply elem_of_nil in Hin].
    + destruct Htail as [->|[(files & -> & _)|(e' & -> & Ha)]].
      * by apply elem_of_nil in Hin.
      * by apply list_elem_of_singleton in Hin.
      * done.
  - intros f Hin. apply elem_of_app in Hin as [Hin|Hin].
    + destruct a as [|batch|r idx|]; try by apply elem_of_nil in Hin.
      destruct (onDelete props) eqn:Hdel; [|by apply elem_of_nil in Hin].
      apply list_elem_of_singleton in Hin as [= ->]. eauto.
    + destruct Htail as [->|[(files & -> & _)|(e' & -> & Ha)]].
      * by apply elem_of_nil in Hin.
      * by apply list_elem_of_singleton in Hin.
      * by apply list_elem_of_singleton in Hin.
Qed.

(** X14: of the four actions only a delete touches the DOM event in
    flight, and all it does is stop its propagation; with no event in flight
    there is still none afterwards. *)
Theorem only_delete_stops_propagation props (a : Action) w :
  event (perform createFileFromUrl readFile props a w).2
  = match a with
    | Delete _ _ => (λ _, {| propagationStopped := true |}) <$> event w
    | _ => event w
    end.
Proof. by destruct (perform_effects props a w) as (tail & _ & _ & ->). Qed.

End MoreProperties.

(** ** Properties of rendering *)

Section RenderProperties.

Context {File Data V : Type}.

Implicit Types (props : gmap string (option V)).
Implicit Types (st : DropzoneAreaState File Data).

Lemma split_rest_lookup props (k : string) :
  (splitDropzoneAreaProps props).2 !! k
  = if bool_decide (k ∈ ["clearOnUnmount"; "initialFiles"; "onChange";
                         "onDelete"])
    then None else props !! k.
Proof.
  unfold splitDropzoneAreaProps. simpl. case_bool_decide as Hk.
  - repeat (apply elem_of_cons in Hk as [->|Hk]; [by simplify_map_eq|]).
    by apply elem_of_nil in Hk.
  - rewrite !not_elem_of_cons in Hk. destruct Hk as (? & ? & ? & ? & _).
    by rewrite !lookup_delete_ne.
Qed.

Lemma split_own_lookup props (k : string) :
  (splitDropzoneAreaProps props).1 !! k
  = if bool_decide (k ∈ ["clearOnUnmount"; "initialFiles"; "onChange";
                         "onDelete"])
    then Some (js_get props k) else None.
Proof.
  unfold splitDropzoneAreaProps. simpl. case_bool_decide as Hk.
  - repeat (apply elem_of_cons in Hk as [->|Hk]; [by simplify_map_eq|]).
    by apply elem_of_nil in Hk.
  - rewrite !not_elem_of_cons in Hk. destruct Hk as (? & ? & ? & ? & _).
    by rewrite !lookup_insert_ne.
Qed.

Lemma render_lookup props st (k : string) :
  render props st !! k
  = if bool_decide (k = "onDelete") then Some (Some BoundDeleteFile)
    else if bool_decide (k = "onAdd") then Some (Some BoundAddFiles)
    else if bool_decide (k = "fileObjects")
         then Some (Some (StateFileObjects (fileObjects st)))
    else fmap (M := option)
           (fmap (M := option) (HostValue (File := File) (Data := Data)))
           ((splitDropzoneAreaProps props).2 !! k).
Proof.
  unfold render. repeat case_bool_decide; subst; simplify_map_eq; try done.
Qed.

(** X15: the two objects [splitDropzoneAreaProps] returns share no name,
    and reading any name from them put together gives what reading it from
    the props gave: the split loses nothing. *)
Theorem split_props_loses_nothing props :
  (splitDropzoneAreaProps props).1 ##ₘ (splitDropzoneAreaProps props).2
  ∧ ∀ k : string,
      js_get ((splitDropzoneAreaProps props).1
              ∪ (splitDropzoneAreaProps props).2) k
      = js_get props k.
Proof.
  split.
  - apply map_disjoint_spec. intros k x y Hx Hy.
    rewrite split_own_lookup in Hx. rewrite split_rest_lookup in Hy.
    by case_bool_decide.
  - intros k. unfold js_get at 1. rewrite lookup_union.
    rewrite split_own_lookup, split_rest_lookup.
    case_bool_decide; [done|]. unfold js_get.
    by destruct (props !! k).
Qed.

(** X16: every prop of [this.props] whose name is not one of the four the
    component keeps nor one of the three it sets reaches [DropzoneAreaBase]
    as [this.props] holds it ([filesLimit] among them), and under such a
    name the base is given nothing that [this.props] lacks. *)
Theorem render_passes_through props st (k : string) :
  k ∉ reserved_names →
  render props st !! k
  = fmap (M := option)
      (fmap (M := option) (HostValue (File := File) (Data := Data)))
      (props !! k).
Proof.
  unfold reserved_names. rewrite !not_elem_of_cons.
  intros (? & ? & ? & ? & ? & ? & _).
  rewrite render_lookup, !bool_decide_eq_false_2 by done.
  rewrite split_rest_lookup, bool_decide_eq_false_2; [done|].
  rewrite !not_elem_of_cons. by repeat split; [..|apply not_elem_of_nil].
Qed.

(** X17: a value of the host reaches [DropzoneAreaBase] only under the
    name the host gave it, and never under a reserved name: the host's
    [onChange], [initialFiles], [clearOnUnmount], [onDelete], and anything it
    passes as [fileObjects] or [onAdd], are not handed on. *)
Theorem render_host_values_only_by_name props st (k : string) (v : V) :
  render props st !! k = Some (Some (HostValue v)) →
  (k ∉ reserved_names) ∧ props !! k = Some (Some v).
Proof.
  rewrite render_lookup, split_rest_lookup. unfold reserved_names.
  repeat case_bool_decide; subst; try done.
  intros Hk. split.
  - match goal with
    | H : k ∉ _ |- _ =>
        rewrite !not_elem_of_cons in H; destruct H as (? & ? & ? & ? & _)
    end.
    rewrite !not_elem_of_cons. by repeat split; [..|apply not_elem_of_nil].
  - destruct (props !! k) as [[v'|]|]; simplify_eq/=; done.
Qed.

(** X18: whatever the host passes, the base is rendered with the state's
    slots as [fileObjects], the component's [addFiles] as [onAdd] and its
    [deleteFile] as [onDelete], and with no [onChange], [initialFiles] or
    [clearOnUnmount] prop at all. *)
Theorem render_wires_component props st :
  render props st !! "fileObjects"
  = Some (Some (StateFileObjects (fileObjects st)))
  ∧ render props st !! "onAdd" = Some (Some BoundAddFiles)
  ∧ render props st !! "onDelete" = Some (Some BoundDeleteFile)
  ∧ render props st !! "onChange" = None
  ∧ render props st !! "initialFiles" = None
  ∧ render props st !! "clearOnUnmount" = None.
Proof.
  rewrite !render_lookup, !split_rest_lookup.
  by repeat split.
Qed.

(** *** From the host's props *)

Section FromHost.

Variable of_bool : bool → V.
Variable of_number : Z → V.
Variable of_initialFiles : list (InitialFile File) → V.



End FromHost.

End RenderProperties.

(** ** The further properties at the concrete instances *)

(** X3 at one record in state and two initial files. *)
Lemma hydration_appends_to_existing_witness :
  loadInitialFiles Sample.createFileFromUrl Sample.readFile
    (Sample.props None [Url "https://host/a.png"; Handle "b.txt"])
    (Sample.world [Some (Sample.record "dropped.txt")])
  = (Normal tt,
     {| state :=
          {| fileObjects :=
               [Some (Sample.record "dropped.txt");
                Some (Sample.record "https://host/a.png");
                Some (Sample.record "b.txt")] |};
        event := None;
        trace :=
          [OnChange ["dropped.txt"; "https://host/a.png"; "b.txt"]] |}).
Proof.
  refine (eq_trans
            (hydration_appends_to_existing Sample.createFileFromUrl
               Sample.readFile
               (Sample.props None [Url "https://host/a.png"; Handle "b.txt"])
               (Sample.world [Some (Sample.record "dropped.txt")])
               [Sample.record "dropped.txt"]
               [Sample.record "https://host/a.png"; Sample.record "b.txt"]
               _ _ _) _).
  - reflexivity.
  - reflexivity.
  - repeat constructor.
  - reflexivity.
Defined.

(** X4 at a first mount with an empty initial list. *)
Lemma mount_without_initial_files_notifies_witness :
  componentDidMount Sample.createFileFromUrl Sample.readFile
    (Sample.props None []) initialWorld
  = (Normal tt,
     {| state := initialState; event := None; trace := [OnChange []] |}).
Proof.
  refine (eq_trans
            (mount_without_initial_files_notifies Sample.createFileFromUrl
               Sample.readFile (Sample.props None []) initialWorld []
               _ _ _) _).
  - right. reflexivity.
  - reflexivity.
  - reflexivity.
  - reflexivity.
Defined.

(** X5 at a limit of 2, one record in state and a batch of three. *)
Lemma addFiles_not_capped_witness :
  length
    (fileObjects
       (state
          (addFiles (Reason := string) (Sample.props (Some 2) [])
             [Sample.record "x.txt"; Sample.record "y.txt";
              Sample.record "z.txt"]
             (Sample.world [Some (Sample.record "old.txt")])).2))
  = 4%nat.
Proof.
  refine (eq_trans
            (addFiles_not_capped (Sample.props (Some 2) [])
               (Sample.world [Some (Sample.record "old.txt")]) 2
               [Sample.record "x.txt"; Sample.record "y.txt";
                Sample.record "z.txt"] _ _) _).
  - reflexivity.
  - lia.
  - reflexivity.
Defined.

(** X6 at a limit of 1, with [onChange] supplied. *)
Lemma addFiles_empty_batch_single_mode_witness :
  addFiles (Reason := string) (Sample.props (Some 1) []) []
    (Sample.world [Some (Sample.record "old.txt")])
  = (Throw TypeError,
     {| state := {| fileObjects := [None] |}; event := None; trace := [] |}).
Proof.
  refine (eq_trans
            (addFiles_empty_batch_single_mode (Sample.props (Some 1) [])
               (Sample.world [Some (Sample.record "old.txt")]) _) _).
  - simpl. lia.
  - reflexivity.
Defined.

(** X7 at a limit of 0 and a batch of two. *)
Lemma addFiles_single_notifies_kept_only_witness :
  addFiles (Reason := string) (Sample.props (Some 0) [])
    [Sample.record "x.txt"; Sample.record "y.txt"]
    (Sample.world [Some (Sample.record "old.txt")])
  = (Normal tt,
     {| state := {| fileObjects := [Some (Sample.record "x.txt")] |};
        event := None; trace := [OnChange ["x.txt"]] |}).
Proof.
  refine (eq_trans
            (addFiles_single_notifies_kept_only (Sample.props (Some 0) [])
               (Sample.world [Some (Sample.record "old.txt")])
               (Sample.record "x.txt") [Sample.record "y.txt"] _ _) _).
  - simpl. lia.
  - reflexivity.
  - reflexivity.
Defined.

(** X8 at the default limit and two records in state. *)
Lemma add_then_delete_restores_witness :
  fileObjects
    (state
       (run Sample.createFileFromUrl Sample.readFile (Sample.props None [])
          [Add [Sample.record "x.txt"]; Delete (Sample.record "x.txt") 2]
          (Sample.world [Some (Sample.record "a.txt");
                         Some (Sample.record "b.txt")])))
  = [Some (Sample.record "a.txt"); Some (Sample.record "b.txt")].
Proof.
  refine (eq_trans
            (add_then_delete_restores Sample.createFileFromUrl Sample.readFile
               (Sample.props None [])
               (Sample.world [Some (Sample.record "a.txt");
                              Some (Sample.record "b.txt")])
               (Sample.record "x.txt") (Sample.record "x.txt") _) _).
  - simpl. unfold defaultProps_filesLimit. lia.
  - reflexivity.
Defined.

(** X10 at a limit of 1 and a run of four actions. *)
Lemma single_file_mode_invariant_witness :
  (length
     (fileObjects
        (state
           (run Sample.createFileFromUrl Sample.readFile
              (Sample.props (Some 1%Z) [])
              [Add [Sample.record "x.txt"; Sample.record "y.txt"];
               Add [Sample.record "z.txt"];
               Delete (Sample.record "z.txt") 5%Z;
               Unmount]
              (Sample.world []))))
   ≤ 1)%nat.
Proof.
  apply (single_file_mode_invariant Sample.createFileFromUrl Sample.readFile
           (Sample.props (Some 1%Z) [])).
  - repeat constructor; discriminate.
  - simpl. lia.
  - simpl. lia.
Defined.

(** X11 at a mount that fails, an add, a delete and an unmount. *)
Lemma no_callbacks_no_host_calls_witness :
  ∃ new,
    trace
      (run Sample.createFileFromUrl Sample.readFile SampleQuiet.props
         [Mount; Add [Sample.record "x.txt"];
          Delete (Sample.record "x.txt") 0; Unmount]
         initialWorld)
    = trace (initialWorld (File := string) (Data := string)) ++ new
    ∧ Forall (λ e, is_host_call e = false) new.
Proof.
  apply (no_callbacks_no_host_calls Sample.createFileFromUrl Sample.readFile
           SampleQuiet.props).
  - reflexivity.
  - reflexivity.
Defined.

(** X16 at [filesLimit]. *)
Lemma render_passes_through_witness :
  render (File := string) (Data := string) SampleHost.props
    {| fileObjects := [] |} !! "filesLimit"
  = Some (Some (HostValue "5")).
Proof.
  refine (eq_trans
            (render_passes_through SampleHost.props {| fileObjects := [] |}
               "filesLimit" _) _).
  - unfold reserved_names. rewrite !not_elem_of_cons.
    repeat split; try discriminate. apply not_elem_of_nil.
  - reflexivity.
Defined.

(** X17 at [dropzoneText]. *)
Lemma render_host_values_only_by_name_witness :
  ("dropzoneText" ∉ reserved_names)
  ∧ SampleHost.props !! "dropzoneText" = Some (Some "Drop here").
Proof.
  apply (render_host_values_only_by_name (File := string) (Data := string)
           SampleHost.props {| fileObjects := [] |}).
  reflexivity.
Defined.

(** ** Unmounting at the concrete instance *)

(** C6 at the failing input: with [clearOnUnmount] absent (so [true]) and
    an [onChange] supplied, unmounting a component that holds one record
    leaves that record in state and calls nothing; so does unmounting with
    [clearOnUnmount] at [false]. *)
Theorem unmount_clear_is_dropped :
  default defaultProps_clearOnUnmount (clearOnUnmount (Sample.props None []))
  = true
  ∧ onChange (Sample.props None []) = true
  ∧ componentWillUnmount (Reason := string) (Sample.props None [])
      (Sample.world [Some (Sample.record "a.txt")])
    = (Normal tt,
       {| state := {| fileObjects := [Some (Sample.record "a.txt")] |};
          event := None; trace := [] |})
  ∧ componentWillUnmount (Reason := string) Sample.props_keep
      (Sample.world [Some (Sample.record "a.txt")])
    = (Normal tt, Sample.world [Some (Sample.record "a.txt")]).
Proof. by repeat split. Qed.


(** X1 at a list whose second entry cannot be fetched. *)
Lemma loadInitialFiles_catches_and_logs_witness :
  (loadInitialFiles Sample.createFileFromUrl Sample.readFile
     (Sample.props None [Handle "a.txt"; Url "https://host/missing.png"])
     initialWorld).1 = Normal tt
  ∧ ∃ r : string,
      Exists (λ e, resolveInitialFile Sample.createFileFromUrl
                     Sample.readFile e = Rejected r)
        [Handle "a.txt"; Url "https://host/missing.png"]
      ∧ (loadInitialFiles Sample.createFileFromUrl Sample.readFile
           (Sample.props None [Handle "a.txt"; Url "https://host/missing.png"])
           initialWorld).2
        = {| state := initialState; event := None;
             trace := [ConsoleLog (Rejection r)] |}.
Proof.
  destruct (loadInitialFiles_catches_and_logs Sample.createFileFromUrl
              Sample.readFile
              (Sample.props None
                 [Handle "a.txt"; Url "https://host/missing.png"])
              initialWorld) as [Hnormal Hlogged].
  split; [exact Hnormal|]. apply Hlogged.
  right. left. exists "404". reflexivity.
Defined.

